(** * cozy_data: the Linux platform-channel endpoint

    A shallow embedding of [linux/cozy_data_plugin.cc]: the method-call
    handler, the platform version query and the plugin registration,
    together with the pieces of libc, GLib and the Flutter Linux embedder
    they call.  C strings, the [utsname] character arrays, the method
    channel and the reference counts are modelled as the C code sees
    them; calls into the embedder and the kernel are recorded in a trace. *)

From Stdlib Require Import String Ascii List ZArith Lia Bool.
From stdpp Require Import gmap strings.
Import ListNotations.

Local Open Scope Z_scope.

(** ** C strings and character arrays *)

Module CStr.

(** The terminator of a C string. *)
Definition NUL : ascii := Ascii.zero.

Definition is_nul (c : ascii) : bool := Ascii.eqb c NUL.

(** The value of a character as an [unsigned char]. *)
Definition uchar (c : ascii) : Z := Z.of_N (N_of_ascii c).

(** A [const gchar*] is modelled by the characters it points to.  The
    terminator is implicit at the end of the Rocq string; [c_str] gives
    the text C functions see, which stops at the first NUL if the
    characters contain one. *)
Fixpoint c_str (s : string) : string :=
  match s with
  | EmptyString => EmptyString
  | String c r => if is_nul c then EmptyString else String c (c_str r)
  end.

(** No character of [s] is the terminator: [s] is the text of a C string. *)
Fixpoint nul_free (s : string) : bool :=
  match s with
  | EmptyString => true
  | String c r => negb (is_nul c) && nul_free r
  end.

(** The byte at the front of a C string, the terminator when it is empty. *)
Definition front (s : string) : Z :=
  match s with
  | EmptyString => 0
  | String c _ => uchar c
  end.

(** [strcmp] of libc: the difference of the first pair of bytes that
    differ (compared as [unsigned char]), 0 when both strings end
    together. *)
Fixpoint strcmp (s1 s2 : string) : Z :=
  match s1, s2 with
  | String c1 r1, String c2 r2 =>
      if Ascii.eqb c1 c2
      then (if is_nul c1 then 0 else strcmp r1 r2)
      else uchar c1 - uchar c2
  | _, _ => front s1 - front s2
  end.

(** A [char\[n\]] array is the list of its [n] bytes.  Passing it where a
    [char*] is expected reads it up to the first NUL; an array without a
    terminator has no text (the read would run past its end). *)
Fixpoint text_of_array (a : list ascii) : option string :=
  match a with
  | [] => None
  | c :: r =>
      if is_nul c then Some EmptyString
      else option_map (String c) (text_of_array r)
  end.

(** An array of [n] zero bytes: what [= {}] leaves in a [char\[n\]]. *)
Definition zero_array (n : nat) : list ascii := repeat NUL n.

(** The kernel's copy of a name into an [n]-byte field: at most [n-1]
    characters of the text, the rest of the field zero. *)
Fixpoint fill_array (n : nat) (s : string) : list ascii :=
  match n with
  | O => []
  | S n' =>
      match n', s with
      | S _, String c r =>
          if is_nul c then zero_array n else c :: fill_array n' r
      | _, _ => zero_array n
      end
  end.

(** The first [n] characters of the text of [s]: what an [n+1]-byte
    field holds after [fill_array]. *)
Fixpoint field_text (n : nat) (s : string) : string :=
  match n, s with
  | S n', String c r =>
      if is_nul c then EmptyString else String c (field_text n' r)
  | _, _ => EmptyString
  end.

(** [g_strdup_printf] of GLib, for the directives [%s] and [%%]: the
    format is copied, each [%s] replaced by the text of the next
    argument.  A directive without its argument, or one not modelled,
    gives no result. *)
Fixpoint g_strdup_printf (fmt : string) (args : list string) : option string :=
  match fmt with
  | EmptyString => Some EmptyString
  | String "%"%char (String "s"%char rest) =>
      match args with
      | a :: args' =>
          option_map (String.append (c_str a)) (g_strdup_printf rest args')
      | [] => None
      end
  | String "%"%char (String "%"%char rest) =>
      option_map (String "%"%char) (g_strdup_printf rest args)
  | String "%"%char _ => None
  | String c rest =>
      if is_nul c then Some EmptyString
      else option_map (String c) (g_strdup_printf rest args)
  end.

End CStr.

Import CStr.

(** ** The embedder's data, as the plugin uses it *)

(** [FlValue]: the tagged values of the standard codec (its scalar
    cases; the handler never looks inside the arguments of a call). *)
Inductive FlValue : Type :=
  | FlValueNull
  | FlValueBool (b : bool)
  | FlValueInt (i : Z)
  | FlValueString (s : string).

(** [fl_value_new_string]: a string value holding a copy of the text. *)
Definition fl_value_new_string (s : string) : FlValue := FlValueString (c_str s).

(** [FlMethodResponse] and its three subclasses. *)
Inductive FlMethodResponse : Type :=
  | FlMethodSuccessResponse (result : FlValue)
  | FlMethodErrorResponse (code message : string) (details : FlValue)
  | FlMethodNotImplementedResponse.

Definition fl_method_success_response_new (result : FlValue) : FlMethodResponse :=
  FlMethodSuccessResponse result.

Definition fl_method_not_implemented_response_new : FlMethodResponse :=
  FlMethodNotImplementedResponse.

(** The shape of a response, without its payload. *)
Inductive ResponseKind : Type := KSuccess | KError | KNotImplemented.

Definition response_kind (r : FlMethodResponse) : ResponseKind :=
  match r with
  | FlMethodSuccessResponse _ => KSuccess
  | FlMethodErrorResponse _ _ _ => KError
  | FlMethodNotImplementedResponse => KNotImplemented
  end.

(** A GObject is known by its address. *)
Definition GObject : Type := nat.

(** A binary messenger is known by its address; a method channel by its
    messenger and its name. *)
Definition FlBinaryMessenger : Type := nat.
Definition FlMethodChannel : Type := (FlBinaryMessenger * string)%type.

Inductive FlMethodCodec : Type := FlStandardMethodCodec | FlJsonMethodCodec.

Definition fl_standard_method_codec_new : FlMethodCodec := FlStandardMethodCodec.

Record FlPluginRegistrar : Type := mkRegistrar {
  registrar_messenger : FlBinaryMessenger
}.

Definition fl_plugin_registrar_get_messenger (r : FlPluginRegistrar) : FlBinaryMessenger :=
  registrar_messenger r.

(** [FlMethodCall]: the name and arguments of a call, and the handle the
    response to it goes back on. *)
Record FlMethodCall : Type := mkCall {
  call_name : string;
  call_args : FlValue;
  call_response_handle : nat
}.

Definition fl_method_call_get_name (c : FlMethodCall) : string := c_str (call_name c).

(** [struct _CozyDataPlugin]: the parent instance and nothing else. *)
Record CozyDataPlugin : Type := mkPlugin {
  parent_instance : GObject
}.

(** ** The kernel's [utsname] *)

(** [_UTSNAME_LENGTH] of glibc on Linux: each field is a [char\[65\]]. *)
Definition UTSNAME_LENGTH : nat := 65.

Record utsname : Type := mkUtsname {
  sysname : list ascii;
  nodename : list ascii;
  release : list ascii;
  version : list ascii;
  machine : list ascii;
  domainname : list ascii
}.

(** [struct utsname uname_data = {};] *)
Definition utsname_zero : utsname :=
  let z := zero_array UTSNAME_LENGTH in mkUtsname z z z z z z.

(** The names the running kernel holds. *)
Record kernel_names : Type := mkKernel {
  k_sysname : string;
  k_nodename : string;
  k_release : string;
  k_version : string;
  k_machine : string;
  k_domainname : string
}.

(** What a call of [uname] does on this host: it fills the caller's
    structure, or it fails and leaves the structure as it was. *)
Inductive uname_outcome : Type :=
  | UnameOk (k : kernel_names)
  | UnameFail.

(** The text a field of the structure can hold. *)
Definition uts_text (s : string) : string := field_text (Nat.pred UTSNAME_LENGTH) s.

(** ** The world around the plugin *)

(** The callbacks of this file that are handed to the embedder. *)
Inductive Callback : Type := method_call_cb_ptr.
Inductive DestroyNotify : Type := g_object_unref_ptr.

Record MethodCallHandler : Type := mkHandler {
  handler_cb : Callback;
  handler_user_data : GObject;
  handler_destroy_notify : DestroyNotify
}.

Record ChannelState : Type := mkChannel {
  channel_codec : FlMethodCodec;
  channel_handler : option MethodCallHandler
}.

(** Calls that leave the plugin, in the order they are made. *)
Inductive Event : Type :=
  | EvUname (ret : Z)
  | EvRespond (handle : nat) (response : option FlMethodResponse).

Record World : Type := mkWorld {
  kernel : uname_outcome;
  channels : gmap (FlBinaryMessenger * string) ChannelState;
  refcounts : gmap GObject nat;
  trace : list Event
}.

Definition log (e : Event) (w : World) : World :=
  mkWorld (kernel w) (channels w) (refcounts w) (trace w ++ [e]).

Definition set_channels (c : gmap (FlBinaryMessenger * string) ChannelState) (w : World) : World :=
  mkWorld (kernel w) c (refcounts w) (trace w).

Definition set_refcounts (r : gmap GObject nat) (w : World) : World :=
  mkWorld (kernel w) (channels w) r (trace w).

(** ** A state monad with undefined behaviour *)

Definition M (A : Type) : Type := World -> option (A * World).

Definition ret {A : Type} (a : A) : M A := fun w => Some (a, w).

Definition bind {A B : Type} (m : M A) (k : A -> M B) : M B :=
  fun w => match m w with
           | Some (a, w') => k a w'
           | None => None
           end.

Definition undefined {A : Type} : M A := fun _ => None.

Definition lift {A : Type} (o : option A) : M A :=
  match o with
  | Some a => ret a
  | None => undefined
  end.

Definition get_world : M World := fun w => Some (w, w).
Definition modify (f : World -> World) : M unit := fun w => Some (tt, f w).

Notation "'do' x <- m ; k" := (bind m (fun x => k))
  (at level 10, x name, m at level 100, k at level 200, only parsing).

(** ** libc, GLib and the embedder *)

(** The structure as the kernel fills it on success. *)
Definition write_utsname (k : kernel_names) : utsname :=
  mkUtsname (fill_array UTSNAME_LENGTH (k_sysname k))
            (fill_array UTSNAME_LENGTH (k_nodename k))
            (fill_array UTSNAME_LENGTH (k_release k))
            (fill_array UTSNAME_LENGTH (k_version k))
            (fill_array UTSNAME_LENGTH (k_machine k))
            (fill_array UTSNAME_LENGTH (k_domainname k)).

(** [uname(2)]: returns the structure after the call and the return
    value, 0 on success and -1 on failure. *)
Definition uname (buf : utsname) : M (utsname * Z) :=
  do w <- get_world ;
  match kernel w with
  | UnameOk k => do _ <- modify (log (EvUname 0)) ; ret (write_utsname k, 0)
  | UnameFail => do _ <- modify (log (EvUname (-1))) ; ret (buf, -1)
  end.

(** [g_object_new]: a new object at a fresh address, with one reference. *)
Definition g_object_new : M GObject :=
  do w <- get_world ;
  let o := fresh (dom (refcounts w)) in
  do _ <- modify (set_refcounts (<[o := 1%nat]> (refcounts w))) ;
  ret o.

Definition g_object_ref (o : GObject) : M GObject :=
  do w <- get_world ;
  match refcounts w !! o with
  | Some n => do _ <- modify (set_refcounts (<[o := S n]> (refcounts w))) ; ret o
  | None => undefined
  end.

(** [g_object_unref]: the last reference frees the object. *)
Definition g_object_unref (o : GObject) : M unit :=
  do w <- get_world ;
  match refcounts w !! o with
  | Some (S (S n)) => modify (set_refcounts (<[o := S n]> (refcounts w)))
  | Some _ => modify (set_refcounts (delete o (refcounts w)))
  | None => undefined
  end.

Definition run_destroy_notify (d : DestroyNotify) (user_data : GObject) : M unit :=
  match d with
  | g_object_unref_ptr => g_object_unref user_data
  end.

(** [fl_method_channel_new]: the channel of that name on the messenger,
    without a handler yet. *)
Definition fl_method_channel_new (messenger : FlBinaryMessenger) (name : string)
    (codec : FlMethodCodec) : M FlMethodChannel :=
  let channel := (messenger, c_str name) in
  do w <- get_world ;
  do _ <- modify (set_channels (<[channel := mkChannel codec None]> (channels w))) ;
  ret channel.

(** [fl_method_channel_set_method_call_handler]: releases the user data
    of the handler it replaces, if any, and installs the new one. *)
Definition fl_method_channel_set_method_call_handler (channel : FlMethodChannel)
    (cb : Callback) (user_data : GObject) (destroy_notify : DestroyNotify) : M unit :=
  do w <- get_world ;
  match channels w !! channel with
  | Some st =>
      do _ <- match channel_handler st with
         | Some old =>
             run_destroy_notify (handler_destroy_notify old) (handler_user_data old)
         | None => ret tt
         end ;
      do w' <- get_world ;
      modify (set_channels
                (<[channel := mkChannel (channel_codec st)
                                (Some (mkHandler cb user_data destroy_notify))]>
                   (channels w')))
  | None => undefined
  end.

(** [fl_method_call_respond]: hands the response to the channel; a null
    response is refused and nothing is sent. *)
Definition fl_method_call_respond (method_call : FlMethodCall)
    (response : option FlMethodResponse) : M bool :=
  do _ <- modify (log (EvRespond (call_response_handle method_call) response)) ;
  ret (match response with Some _ => true | None => false end).

(** ** The plugin: [linux/cozy_data_plugin.cc] *)

Definition COZY_DATA_PLUGIN (obj : GObject) : CozyDataPlugin := mkPlugin obj.

Definition get_platform_version : M FlMethodResponse :=
  let uname_data := utsname_zero in
  do r <- uname uname_data ;
  let uname_data := fst r in
  do text <- lift (text_of_array (version uname_data)) ;
  do version <- lift (g_strdup_printf "Linux %s" [text]) ;
  let result := fl_value_new_string version in
  ret (fl_method_success_response_new result).

Definition cozy_data_plugin_handle_method_call (self : CozyDataPlugin)
    (method_call : FlMethodCall) : M unit :=
  let response : option FlMethodResponse := None in
  let method := fl_method_call_get_name method_call in
  do response <-
    (if strcmp method "getPlatformVersion" =? 0
     then do r <- get_platform_version ; ret (Some r)
     else ret (Some fl_method_not_implemented_response_new)) ;
  do _ <- fl_method_call_respond method_call response ;
  ret tt.

Definition method_call_cb (channel : FlMethodChannel) (method_call : FlMethodCall)
    (user_data : GObject) : M unit :=
  let plugin := COZY_DATA_PLUGIN user_data in
  cozy_data_plugin_handle_method_call plugin method_call.

Definition cozy_data_plugin_register_with_registrar (registrar : FlPluginRegistrar) : M unit :=
  do obj <- g_object_new ;
  let plugin := COZY_DATA_PLUGIN obj in
  let codec := fl_standard_method_codec_new in
  do channel <- fl_method_channel_new (fl_plugin_registrar_get_messenger registrar)
                                      "cozy_data" codec ;
  do user_data <- g_object_ref (parent_instance plugin) ;
  do _ <- fl_method_channel_set_method_call_handler channel method_call_cb_ptr
                                               user_data g_object_unref_ptr ;
  g_object_unref (parent_instance plugin).

(** ** The embedder calling back *)

Definition run_callback (cb : Callback) : FlMethodChannel -> FlMethodCall -> GObject -> M unit :=
  match cb with
  | method_call_cb_ptr => method_call_cb
  end.

(** A method call arriving on a channel: the handler installed on the
    channel, if there is one, is called with its user data. *)
Definition deliver (channel : FlMethodChannel) (method_call : FlMethodCall) : M unit :=
  do w <- get_world ;
  match channels w !! channel with
  | Some st =>
      match channel_handler st with
      | Some h => run_callback (handler_cb h) channel method_call (handler_user_data h)
      | None => ret tt
      end
  | None => ret tt
  end.

(** Calls handled one after the other. *)
Fixpoint handle_calls (self : CozyDataPlugin) (calls : list FlMethodCall) : M unit :=
  match calls with
  | [] => ret tt
  | c :: cs => do _ <- cozy_data_plugin_handle_method_call self c ; handle_calls self cs
  end.

(** ** What can be observed *)

(** The responses sent on a handle, in order. *)
Fixpoint responses_to (h : nat) (t : list Event) : list FlMethodResponse :=
  match t with
  | [] => []
  | EvRespond h' (Some r) :: t' =>
      if Nat.eqb h h' then r :: responses_to h t' else responses_to h t'
  | _ :: t' => responses_to h t'
  end.

(** The calls of [uname] made. *)
Fixpoint uname_calls (t : list Event) : nat :=
  match t with
  | [] => O
  | EvUname _ :: t' => S (uname_calls t')
  | _ :: t' => uname_calls t'
  end.

(** The events a run added to the trace. *)
Definition new_events (w w' : World) : list Event :=
  skipn (List.length (trace w)) (trace w').

(** The responses a call gets from the handler. *)
Definition replies (self : CozyDataPlugin) (method_call : FlMethodCall) (w : World)
    : option (list FlMethodResponse) :=
  match cozy_data_plugin_handle_method_call self method_call w with
  | Some (_, w') => Some (responses_to (call_response_handle method_call) (new_events w w'))
  | None => None
  end.

(** The return value of [uname] on a host. *)
Definition uname_status (o : uname_outcome) : Z :=
  match o with
  | UnameOk _ => 0
  | UnameFail => -1
  end.

(** The structure a call of [uname] leaves, given the one passed in. *)
Definition utsname_after (o : uname_outcome) (buf : utsname) : utsname :=
  match o with
  | UnameOk k => write_utsname k
  | UnameFail => buf
  end.

(** The text of the version and release fields of a zeroed structure
    after [uname]. *)
Definition version_seen (o : uname_outcome) : string :=
  match o with
  | UnameOk k => uts_text (k_version k)
  | UnameFail => ""
  end.

Definition release_seen (o : uname_outcome) : string :=
  match o with
  | UnameOk k => uts_text (k_release k)
  | UnameFail => ""
  end.

(** The events of a trace that are calls of [fl_method_call_respond]. *)
Fixpoint respond_events (t : list Event) : list (nat * option FlMethodResponse) :=
  match t with
  | [] => []
  | EvRespond h r :: t' => (h, r) :: respond_events t'
  | _ :: t' => respond_events t'
  end.

(** Two worlds that differ at most in their traces. *)
Definition same_state (w w' : World) : Prop :=
  kernel w = kernel w' /\ channels w = channels w' /\ refcounts w = refcounts w'.

Definition GET_PLATFORM_VERSION : string := "getPlatformVersion".

(** The world after registration: the plugin object is new and has one
    reference left, held by the handler installed on the channel
    "cozy_data" of the registrar's messenger. *)
Definition registered (registrar : FlPluginRegistrar) (w : World) : World :=
  let obj := fresh (dom (refcounts w)) in
  mkWorld (kernel w)
          (<[(registrar_messenger registrar, "cozy_data"%string) :=
               mkChannel FlStandardMethodCodec
                 (Some (mkHandler method_call_cb_ptr obj g_object_unref_ptr))]>
             (channels w))
          (<[obj := 1%nat]> (refcounts w))
          (trace w).

(** ** Hosts and calls used as examples *)

(** A host running a 5.15 kernel: [uname -r] prints the release,
    [uname -v] the build string. *)
Definition jammy : kernel_names :=
  mkKernel "Linux" "builder" "5.15.0-generic"
           "#1 SMP Tue Jan 11 10:00:00 UTC 2022" "x86_64" "(none)".

Definition jammy_world : World := mkWorld (UnameOk jammy) ∅ ∅ [].

(** A host on which [uname] fails. *)
Definition failing_world : World := mkWorld UnameFail ∅ ∅ [].

(** A host whose kernel was built with an empty version string. *)
Definition blank_world : World :=
  mkWorld (UnameOk (mkKernel "Linux" "builder" "5.15.0-generic" "" "x86_64" "(none)")) ∅ ∅ [].

Definition plugin0 : CozyDataPlugin := mkPlugin 0%nat.

Definition call_version : FlMethodCall := mkCall "getPlatformVersion" FlValueNull 7%nat.
Definition call_ping : FlMethodCall := mkCall "ping" FlValueNull 8%nat.
Definition call_empty : FlMethodCall := mkCall "" FlValueNull 9%nat.

(** ** Runs of the handler and of the callback *)

(** The test the handler makes on the name of a call. *)
Definition is_version_call (mc : FlMethodCall) : bool :=
  String.eqb (c_str (call_name mc)) "getPlatformVersion".

(** The events handling one call adds to the trace of a world. *)
Definition events_of (self : CozyDataPlugin) (mc : FlMethodCall) (w : World) : list Event :=
  match cozy_data_plugin_handle_method_call self mc w with
  | Some (_, w') => new_events w w'
  | None => []
  end.

(** A world with more events in its trace. *)
Definition add_events (evs : list Event) (w : World) : World :=
  mkWorld (kernel w) (channels w) (refcounts w) (trace w ++ evs).

(** Method calls arriving on a channel, one after the other. *)
Fixpoint deliver_all (channel : FlMethodChannel) (calls : list FlMethodCall) : M unit :=
  match calls with
  | [] => ret tt
  | c :: cs => do _ <- deliver channel c ; deliver_all channel cs
  end.

(** The handler installed on a channel, if the channel exists and has one. *)
Definition installed_handler (channel : FlMethodChannel) (w : World) : option MethodCallHandler :=
  match channels w !! channel with
  | Some st => channel_handler st
  | None => None
  end.

(** * Facts about the C string functions *)

Module CStrFacts.

Lemma is_nul_true (c : ascii) : is_nul c = true <-> c = NUL.
Proof. unfold is_nul. apply Ascii.eqb_eq. Qed.

Lemma is_nul_false (c : ascii) : is_nul c = false <-> c <> NUL.
Proof. unfold is_nul. apply Ascii.eqb_neq. Qed.

Lemma uchar_NUL : uchar NUL = 0.
Proof. reflexivity. Qed.

Lemma uchar_inj (a b : ascii) : uchar a = uchar b -> a = b.
Proof.
  unfold uchar. intros H. apply N2Z.inj in H.
  rewrite <- (ascii_N_embedding a), <- (ascii_N_embedding b). now rewrite H.
Qed.

Lemma uchar_0 (c : ascii) : uchar c = 0 -> c = NUL.
Proof. intros H. apply uchar_inj. now rewrite uchar_NUL. Qed.

Lemma c_str_idem (s : string) : c_str (c_str s) = c_str s.
Proof.
  induction s as [|c r IH]; simpl; [reflexivity|].
  destruct (is_nul c) eqn:E; simpl; [reflexivity|]. now rewrite E, IH.
Qed.

Lemma c_str_nul_free (s : string) : nul_free s = true -> c_str s = s.
Proof.
  induction s as [|c r IH]; simpl; [reflexivity|].
  intros H. apply andb_prop in H as [Hc Hr].
  apply negb_true_iff in Hc. rewrite Hc. now rewrite IH.
Qed.

Lemma nul_free_c_str (s : string) : nul_free (c_str s) = true.
Proof.
  induction s as [|c r IH]; simpl; [reflexivity|].
  destruct (is_nul c) eqn:E; simpl; [reflexivity|]. now rewrite E, IH.
Qed.

(** [strcmp] returns 0 exactly when the two texts are the same. *)
Lemma strcmp_0_iff (s1 s2 : string) : strcmp s1 s2 = 0 <-> c_str s1 = c_str s2.
Proof.
  revert s2. induction s1 as [|c1 r1 IH]; intros [|c2 r2]; simpl.
  - tauto.
  - destruct (is_nul c2) eqn:E.
    + apply is_nul_true in E. subst c2. rewrite uchar_NUL. tauto.
    + split; [|discriminate]. intros H.
      assert (uchar c2 = 0) as H0 by lia.
      apply uchar_0, is_nul_true in H0. congruence.
  - destruct (is_nul c1) eqn:E.
    + apply is_nul_true in E. subst c1. rewrite uchar_NUL. tauto.
    + split; [|discriminate]. intros H.
      assert (uchar c1 = 0) as H0 by lia.
      apply uchar_0, is_nul_true in H0. congruence.
  - destruct (Ascii.eqb c1 c2) eqn:E.
    + apply Ascii.eqb_eq in E. subst c2.
      destruct (is_nul c1); [tauto|].
      rewrite IH. split; [congruence|]. now intros [= ->].
    + apply Ascii.eqb_neq in E. split.
      * intros H. exfalso. apply E, uchar_inj. lia.
      * intros H. exfalso.
        destruct (is_nul c1) eqn:E1, (is_nul c2) eqn:E2; try discriminate.
        -- apply is_nul_true in E1, E2. congruence.
        -- congruence.
Qed.

Lemma strcmp_eqb (s1 s2 : string) :
  (strcmp s1 s2 =? 0) = true <-> c_str s1 = c_str s2.
Proof. rewrite Z.eqb_eq. apply strcmp_0_iff. Qed.

Lemma append_empty_r (s : string) : (s +:+ "")%string = s.
Proof.
  induction s as [|c r IH]; [reflexivity|].
  change (String c (r +:+ "") = String c r). now rewrite IH.
Qed.

Lemma printf_Linux (text : string) :
  g_strdup_printf "Linux %s" [text] = Some ("Linux " +:+ c_str text).
Proof. simpl. now rewrite append_empty_r. Qed.

Lemma text_of_zero_array (n : nat) : text_of_array (zero_array (S n)) = Some ""%string.
Proof. reflexivity. Qed.

Lemma text_of_fill_array (n : nat) (s : string) :
  text_of_array (fill_array (S n) s) = Some (field_text n s).
Proof.
  revert s. induction n as [|n IH]; intros s.
  - reflexivity.
  - destruct s as [|c r]; [reflexivity|].
    change (fill_array (S (S n)) (String c r))
      with (if is_nul c then zero_array (S (S n)) else c :: fill_array (S n) r).
    cbn [field_text]. destruct (is_nul c) eqn:E; [reflexivity|].
    cbn [text_of_array]. now rewrite E, IH.
Qed.

Lemma length_fill_array (n : nat) (s : string) : List.length (fill_array n s) = n.
Proof.
  revert s. induction n as [|n IH]; intros s; [reflexivity|].
  destruct n as [|n]; [reflexivity|].
  destruct s as [|c r]; [apply repeat_length|].
  change (fill_array (S (S n)) (String c r))
    with (if is_nul c then zero_array (S (S n)) else c :: fill_array (S n) r).
  destruct (is_nul c); [apply repeat_length|]. cbn [List.length]. now rewrite IH.
Qed.

Lemma field_text_nul_free (n : nat) (s : string) : nul_free (field_text n s) = true.
Proof.
  revert s. induction n as [|n IH]; intros [|c r]; simpl; try reflexivity.
  destruct (is_nul c) eqn:E; simpl; [reflexivity|]. now rewrite E, IH.
Qed.

(** A name that fits the field is held as it is. *)
Lemma field_text_fits (n : nat) (s : string) :
  nul_free s = true -> (String.length s <= n)%nat -> field_text n s = s.
Proof.
  revert s. induction n as [|n IH]; intros [|c r]; simpl; try reflexivity.
  - lia.
  - intros H Hl. apply andb_prop in H as [Hc Hr].
    apply negb_true_iff in Hc. rewrite Hc. rewrite IH by (auto; lia). reflexivity.
Qed.

Lemma field_text_empty (n : nat) (s : string) :
  c_str s = ""%string -> field_text n s = ""%string.
Proof.
  destruct n, s as [|c r]; simpl; try reflexivity.
  destruct (is_nul c); [reflexivity|discriminate].
Qed.

(** An array with no zero byte has no text: reading it as a string is
    not defined. *)
Lemma text_of_unterminated (a : list ascii) :
  forallb (fun c => negb (is_nul c)) a = true -> text_of_array a = None.
Proof.
  induction a as [|c r IH]; simpl; [reflexivity|].
  intros H. apply andb_prop in H as [Hc Hr].
  apply negb_true_iff in Hc. rewrite Hc, IH by assumption. reflexivity.
Qed.

End CStrFacts.

Import CStrFacts.

(** * Facts about the plugin *)

Section Handler.

Variable self : CozyDataPlugin.

Lemma uname_spec (buf : utsname) (w : World) :
  uname buf w =
  Some ((utsname_after (kernel w) buf, uname_status (kernel w)),
        log (EvUname (uname_status (kernel w))) w).
Proof. unfold uname, bind, get_world. destruct (kernel w); reflexivity. Qed.

Lemma version_after_uname (o : uname_outcome) :
  text_of_array (version (utsname_after o utsname_zero)) = Some (version_seen o).
Proof. destruct o as [k|]; [apply text_of_fill_array | reflexivity]. Qed.

Lemma release_after_uname (o : uname_outcome) :
  text_of_array (release (utsname_after o utsname_zero)) = Some (release_seen o).
Proof. destruct o as [k|]; [apply text_of_fill_array | reflexivity]. Qed.

Lemma version_seen_nul_free (o : uname_outcome) : c_str (version_seen o) = version_seen o.
Proof.
  apply c_str_nul_free. destruct o; [apply field_text_nul_free | reflexivity].
Qed.

Lemma c_str_Linux (s : string) : c_str ("Linux " +:+ s) = ("Linux " +:+ c_str s)%string.
Proof. reflexivity. Qed.

(** The platform version query: one call of [uname], and a success
    response holding "Linux " and the text of the version field. *)
Lemma get_platform_version_spec (w : World) :
  get_platform_version w =
  Some (FlMethodSuccessResponse (FlValueString ("Linux " +:+ version_seen (kernel w))),
        log (EvUname (uname_status (kernel w))) w).
Proof.
  unfold get_platform_version, bind. rewrite uname_spec.
  cbn [fst]. rewrite version_after_uname. cbn [lift ret].
  rewrite printf_Linux. cbn [lift ret].
  unfold fl_method_success_response_new, fl_value_new_string.
  now rewrite c_str_Linux, !version_seen_nul_free.
Qed.

Lemma name_test (m : string) :
  (strcmp (c_str m) "getPlatformVersion" =? 0) = true <-> c_str m = GET_PLATFORM_VERSION.
Proof. rewrite strcmp_eqb, c_str_idem. reflexivity. Qed.

(** The recognised method. *)
Lemma handle_known (mc : FlMethodCall) (w : World) :
  c_str (call_name mc) = GET_PLATFORM_VERSION ->
  cozy_data_plugin_handle_method_call self mc w =
  Some (tt,
        log (EvRespond (call_response_handle mc)
               (Some (FlMethodSuccessResponse
                        (FlValueString ("Linux " +:+ version_seen (kernel w))))))
            (log (EvUname (uname_status (kernel w))) w)).
Proof.
  intros H. apply name_test in H.
  unfold cozy_data_plugin_handle_method_call, fl_method_call_get_name.
  rewrite H. unfold bind at 1 2. rewrite get_platform_version_spec. reflexivity.
Qed.

(** Every other method. *)
Lemma handle_unknown (mc : FlMethodCall) (w : World) :
  c_str (call_name mc) <> GET_PLATFORM_VERSION ->
  cozy_data_plugin_handle_method_call self mc w =
  Some (tt, log (EvRespond (call_response_handle mc)
                   (Some FlMethodNotImplementedResponse)) w).
Proof.
  intros H.
  unfold cozy_data_plugin_handle_method_call, fl_method_call_get_name.
  destruct (strcmp (c_str (call_name mc)) "getPlatformVersion" =? 0) eqn:E.
  - apply name_test in E. contradiction.
  - reflexivity.
Qed.

Lemma name_dec (m : string) :
  {c_str m = GET_PLATFORM_VERSION} + {c_str m <> GET_PLATFORM_VERSION}.
Proof. apply String.string_dec. Qed.

End Handler.

Lemma skipn_length_app {A : Type} (l k : list A) : skipn (List.length l) (l ++ k) = k.
Proof. induction l as [|x l IH]; simpl; auto. Qed.

Lemma new_events_log1 (w : World) (e : Event) : new_events w (log e w) = [e].
Proof. unfold new_events, log. simpl. apply skipn_length_app. Qed.

Lemma new_events_log2 (w : World) (e1 e2 : Event) :
  new_events w (log e2 (log e1 w)) = [e1; e2].
Proof.
  unfold new_events, log. simpl. rewrite <- app_assoc. apply skipn_length_app.
Qed.

Lemma replies_known (self : CozyDataPlugin) (mc : FlMethodCall) (w : World) :
  c_str (call_name mc) = GET_PLATFORM_VERSION ->
  replies self mc w =
  Some [FlMethodSuccessResponse (FlValueString ("Linux " +:+ version_seen (kernel w)))].
Proof.
  intros H. unfold replies. rewrite handle_known by assumption.
  rewrite new_events_log2. simpl. now rewrite Nat.eqb_refl.
Qed.

Lemma replies_unknown (self : CozyDataPlugin) (mc : FlMethodCall) (w : World) :
  c_str (call_name mc) <> GET_PLATFORM_VERSION ->
  replies self mc w = Some [FlMethodNotImplementedResponse].
Proof.
  intros H. unfold replies. rewrite handle_unknown by assumption.
  rewrite new_events_log1. simpl. now rewrite Nat.eqb_refl.
Qed.

(** The handler leaves the kernel, the channels and the objects alone;
    it only adds to the trace. *)
Lemma handle_total (self : CozyDataPlugin) (mc : FlMethodCall) (w : World) :
  exists evs,
    cozy_data_plugin_handle_method_call self mc w =
    Some (tt, mkWorld (kernel w) (channels w) (refcounts w) (trace w ++ evs)).
Proof.
  destruct (name_dec (call_name mc)) as [H|H].
  - rewrite handle_known by assumption. eexists. unfold log. simpl.
    rewrite <- app_assoc. reflexivity.
  - rewrite handle_unknown by assumption. eexists. reflexivity.
Qed.

Lemma same_state_refl (w : World) : same_state w w.
Proof. repeat split. Qed.

Lemma same_state_trans (w1 w2 w3 : World) :
  same_state w1 w2 -> same_state w2 w3 -> same_state w1 w3.
Proof. unfold same_state. intros (?&?&?) (?&?&?). repeat split; congruence. Qed.

Lemma handle_calls_total (self : CozyDataPlugin) (calls : list FlMethodCall) :
  forall w, exists w',
    handle_calls self calls w = Some (tt, w') /\ same_state w w'.
Proof.
  induction calls as [|c cs IH]; intros w.
  - exists w. split; [reflexivity | apply same_state_refl].
  - destruct (handle_total self c w) as [evs Hc].
    cbn [handle_calls]. unfold bind. rewrite Hc.
    destruct (IH (mkWorld (kernel w) (channels w) (refcounts w) (trace w ++ evs)))
      as (w' & Hrun & Hs).
    exists w'. split; [exact Hrun|].
    eapply same_state_trans; [|exact Hs]. repeat split.
Qed.

Lemma register_spec (registrar : FlPluginRegistrar) (w : World) :
  cozy_data_plugin_register_with_registrar registrar w = Some (tt, registered registrar w).
Proof.
  unfold cozy_data_plugin_register_with_registrar, registered.
  unfold g_object_new, fl_method_channel_new, g_object_ref,
    fl_method_channel_set_method_call_handler, g_object_unref,
    bind, get_world, modify, ret, set_refcounts, set_channels,
    COZY_DATA_PLUGIN, fl_plugin_registrar_get_messenger,
    fl_standard_method_codec_new.
  cbn [kernel channels refcounts trace parent_instance c_str is_nul].
  rewrite lookup_insert_eq.
  cbn [kernel channels refcounts trace].
  change (c_str "cozy_data") with "cozy_data"%string.
  rewrite lookup_insert_eq.
  cbn [kernel channels refcounts trace channel_handler channel_codec].
  rewrite lookup_insert_eq.
  cbn [kernel channels refcounts trace].
  now rewrite !insert_insert_eq.
Qed.

Lemma responses_to_app (h : nat) (t1 t2 : list Event) :
  responses_to h (t1 ++ t2) = responses_to h t1 ++ responses_to h t2.
Proof.
  induction t1 as [|e t1 IH]; [reflexivity|].
  destruct e as [st|h' [r|]]; simpl; auto.
  destruct (Nat.eqb h h'); simpl; now rewrite IH.
Qed.

(** * The dispatch contract *)

(** C1. Every method name other than "getPlatformVersion" gets a
    not-implemented response.  A method name is a C string, so it has no
    NUL character in it. *)
Theorem other_methods_not_implemented :
  forall (self : CozyDataPlugin) (mc : FlMethodCall) (w : World),
    nul_free (call_name mc) = true ->
    call_name mc <> "getPlatformVersion"%string ->
    replies self mc w = Some [FlMethodNotImplementedResponse].
Proof.
  intros self mc w Hn Hne. apply replies_unknown.
  rewrite c_str_nul_free by assumption. exact Hne.
Qed.

(** The names "ping" and "" are two such names. *)
Lemma other_methods_not_implemented_witness :
  replies plugin0 call_ping jammy_world = Some [FlMethodNotImplementedResponse] /\
  replies plugin0 call_empty failing_world = Some [FlMethodNotImplementedResponse].
Proof.
  split.
  - apply (other_methods_not_implemented plugin0 call_ping jammy_world);
      [reflexivity | discriminate].
  - apply (other_methods_not_implemented plugin0 call_empty failing_world);
      [reflexivity | discriminate].
Defined.

(** C2. The method "getPlatformVersion" gets a success response whose
    payload is a string value; the string is not empty, unless the
    version the kernel reports is (and in fact it never is, since it
    starts with "Linux "). *)
Theorem getPlatformVersion_success_string :
  forall (self : CozyDataPlugin) (args : FlValue) (h : nat) (w : World),
  exists s : string,
    replies self (mkCall "getPlatformVersion" args h) w =
      Some [FlMethodSuccessResponse (FlValueString s)] /\
    (s <> ""%string \/ version_seen (kernel w) = ""%string) /\
    String.length s = (6 + String.length (version_seen (kernel w)))%nat.
Proof.
  intros self args h w.
  exists ("Linux " +:+ version_seen (kernel w))%string. split; [|split].
  - now apply replies_known.
  - left. discriminate.
  - reflexivity.
Qed.

(** C3, as the specification has it, fails: on a host whose kernel
    release is "5.15.0-generic" the response is not
    "Linux 5.15.0-generic"; it carries the build string of the
    version field. *)
Lemma release_is_not_reported :
  release_seen (kernel jammy_world) = "5.15.0-generic"%string /\
  replies plugin0 call_version jammy_world =
    Some [FlMethodSuccessResponse
            (FlValueString "Linux #1 SMP Tue Jan 11 10:00:00 UTC 2022")] /\
  replies plugin0 call_version jammy_world <>
    Some [FlMethodSuccessResponse (FlValueString "Linux 5.15.0-generic")].
Proof.
  split; [reflexivity|]. split; [reflexivity|]. discriminate.
Qed.

(** C3, amended.  The output is "Linux " followed by the version field
    of [utsname]: on a host whose [uname] succeeds and reports the
    version [v] (a name that fits the field), "getPlatformVersion" gets
    Success("Linux v"). *)
Theorem version_field_format :
  forall (self : CozyDataPlugin) (args : FlValue) (h : nat) (w : World)
         (k : kernel_names),
    kernel w = UnameOk k ->
    nul_free (k_version k) = true ->
    (String.length (k_version k) < UTSNAME_LENGTH)%nat ->
    replies self (mkCall "getPlatformVersion" args h) w =
      Some [FlMethodSuccessResponse (FlValueString ("Linux " +:+ k_version k))].
Proof.
  intros self args h w k Hk Hn Hl.
  rewrite replies_known by reflexivity. rewrite Hk. cbn [version_seen].
  unfold uts_text. rewrite field_text_fits; [reflexivity | assumption |].
  unfold UTSNAME_LENGTH in *. simpl. lia.
Qed.

Lemma version_field_format_witness :
  replies plugin0 call_version jammy_world =
    Some [FlMethodSuccessResponse
            (FlValueString "Linux #1 SMP Tue Jan 11 10:00:00 UTC 2022")].
Proof.
  apply (version_field_format plugin0 FlValueNull 7%nat jammy_world jammy);
    [reflexivity | reflexivity | vm_compute; lia].
Defined.

(** C4. Handling a call makes exactly one call of
    [fl_method_call_respond], on the handle of that call and with a
    response: the responses sent on the handle grow by exactly one, on
    both paths of the dispatch. *)
Theorem exactly_one_response :
  forall (self : CozyDataPlugin) (mc : FlMethodCall) (w : World),
  exists (w' : World) (r : FlMethodResponse),
    cozy_data_plugin_handle_method_call self mc w = Some (tt, w') /\
    trace w' = trace w ++ new_events w w' /\
    respond_events (new_events w w') = [(call_response_handle mc, Some r)] /\
    responses_to (call_response_handle mc) (trace w') =
      responses_to (call_response_handle mc) (trace w) ++ [r].
Proof.
  intros self mc w. destruct (name_dec (call_name mc)) as [H|H].
  - eexists. eexists. split; [now apply handle_known|].
    rewrite new_events_log2. split; [|split].
    + unfold log. simpl. now rewrite <- app_assoc.
    + reflexivity.
    + unfold log. simpl. rewrite !responses_to_app. simpl.
      rewrite Nat.eqb_refl. now rewrite app_nil_r.
  - eexists. eexists. split; [now apply handle_unknown|].
    rewrite new_events_log1. split; [|split].
    + reflexivity.
    + reflexivity.
    + unfold log. simpl. rewrite responses_to_app. simpl.
      now rewrite Nat.eqb_refl.
Qed.

(** C5. The response to a call is a success response (holding a string)
    or a not-implemented response; it is never an error response. *)
Theorem response_shapes :
  forall (self : CozyDataPlugin) (mc : FlMethodCall) (w : World),
  exists r : FlMethodResponse,
    replies self mc w = Some [r] /\
    ((exists s, r = FlMethodSuccessResponse (FlValueString s)) \/
     r = FlMethodNotImplementedResponse) /\
    response_kind r <> KError.
Proof.
  intros self mc w. destruct (name_dec (call_name mc)) as [H|H].
  - eexists. split; [now apply replies_known|]. split; [left; eauto | discriminate].
  - eexists. split; [now apply replies_unknown|]. split; [now right | discriminate].
Qed.

(** The kind of response a method name gets. *)
Lemma replies_kind (self : CozyDataPlugin) (mc : FlMethodCall) (w : World) :
  exists r,
    replies self mc w = Some [r] /\
    response_kind r =
      if name_dec (call_name mc) then KSuccess else KNotImplemented.
Proof.
  destruct (name_dec (call_name mc)) as [H|H].
  - eexists. split; [now apply replies_known | reflexivity].
  - eexists. split; [now apply replies_unknown | reflexivity].
Qed.

(** C6. The kind of the response depends on the method name alone: two
    calls with the same name get responses of the same kind, whatever
    their arguments, their handles, the plugin object, the host, and
    the calls handled before them.  Handling calls changes nothing but
    the trace: no state is kept from one call to the next. *)
Theorem dispatch_depends_on_name_only :
  forall (self1 self2 : CozyDataPlugin) (before1 before2 : list FlMethodCall)
         (c1 c2 : FlMethodCall) (w1 w2 : World),
    call_name c1 = call_name c2 ->
    exists (w1' w2' : World) (r1 r2 : FlMethodResponse),
      handle_calls self1 before1 w1 = Some (tt, w1') /\ same_state w1 w1' /\
      handle_calls self2 before2 w2 = Some (tt, w2') /\ same_state w2 w2' /\
      replies self1 c1 w1' = Some [r1] /\
      replies self2 c2 w2' = Some [r2] /\
      response_kind r1 = response_kind r2.
Proof.
  intros self1 self2 before1 before2 c1 c2 w1 w2 Hname.
  destruct (handle_calls_total self1 before1 w1) as (w1' & H1 & S1).
  destruct (handle_calls_total self2 before2 w2) as (w2' & H2 & S2).
  destruct (replies_kind self1 c1 w1') as (r1 & R1 & K1).
  destruct (replies_kind self2 c2 w2') as (r2 & R2 & K2).
  exists w1', w2', r1, r2. repeat (split; [assumption|]).
  rewrite K1, K2, Hname. reflexivity.
Qed.

Lemma dispatch_depends_on_name_only_witness :
  exists (w1' w2' : World) (r1 r2 : FlMethodResponse),
    handle_calls plugin0 [] jammy_world = Some (tt, w1') /\
    same_state jammy_world w1' /\
    handle_calls (mkPlugin 1%nat) [call_ping; call_version] failing_world = Some (tt, w2') /\
    same_state failing_world w2' /\
    replies plugin0 call_version w1' = Some [r1] /\
    replies (mkPlugin 1%nat) (mkCall "getPlatformVersion" (FlValueInt 5) 2%nat) w2' = Some [r2] /\
    response_kind r1 = response_kind r2.
Proof.
  apply (dispatch_depends_on_name_only plugin0 (mkPlugin 1%nat) []
           [call_ping; call_version] call_version
           (mkCall "getPlatformVersion" (FlValueInt 5) 2%nat)
           jammy_world failing_world).
  reflexivity.
Defined.

(** C7. When [uname] fails, or the version it reports is empty,
    "getPlatformVersion" still gets a success response, holding "Linux "
    with nothing after it.  [uname] is called once and not again, and
    nothing but that response is sent. *)
Theorem os_anomaly_still_success :
  forall (self : CozyDataPlugin) (args : FlValue) (h : nat) (w : World),
    (kernel w = UnameFail \/
     exists k, kernel w = UnameOk k /\ c_str (k_version k) = ""%string) ->
    exists w' : World,
      cozy_data_plugin_handle_method_call self (mkCall "getPlatformVersion" args h) w =
        Some (tt, w') /\
      new_events w w' =
        [EvUname (uname_status (kernel w));
         EvRespond h (Some (FlMethodSuccessResponse (FlValueString "Linux ")))] /\
      uname_calls (new_events w w') = 1%nat.
Proof.
  intros self args h w H.
  assert (version_seen (kernel w) = ""%string) as Hv.
  { destruct H as [H | (k & H & Hk)]; rewrite H; [reflexivity|].
    now apply field_text_empty. }
  eexists. split; [now apply handle_known|].
  rewrite new_events_log2, Hv. split; reflexivity.
Qed.

Lemma os_anomaly_still_success_witness :
  (exists w' : World,
     cozy_data_plugin_handle_method_call plugin0 call_version failing_world = Some (tt, w') /\
     new_events failing_world w' =
       [EvUname (-1);
        EvRespond 7 (Some (FlMethodSuccessResponse (FlValueString "Linux ")))] /\
     uname_calls (new_events failing_world w') = 1%nat) /\
  (exists w' : World,
     cozy_data_plugin_handle_method_call plugin0 call_version blank_world = Some (tt, w') /\
     new_events blank_world w' =
       [EvUname 0;
        EvRespond 7 (Some (FlMethodSuccessResponse (FlValueString "Linux ")))] /\
     uname_calls (new_events blank_world w') = 1%nat).
Proof.
  split.
  - apply (os_anomaly_still_success plugin0 FlValueNull 7%nat failing_world).
    left. reflexivity.
  - apply (os_anomaly_still_success plugin0 FlValueNull 7%nat blank_world).
    right. eexists. split; reflexivity.
Defined.

(** * Registration *)

(** C8. Registration creates the channel named "cozy_data" on the
    registrar's messenger, with the standard method codec, and installs
    [method_call_cb] on it with the new plugin object as user data; no
    other channel changes.  A call arriving on that channel is then
    handled by [cozy_data_plugin_handle_method_call]. *)
Theorem register_installs_handler :
  forall (registrar : FlPluginRegistrar) (w : World),
  exists (w' : World) (obj : GObject),
    cozy_data_plugin_register_with_registrar registrar w = Some (tt, w') /\
    channels w' =
      <[(registrar_messenger registrar, "cozy_data"%string) :=
          mkChannel FlStandardMethodCodec
            (Some (mkHandler method_call_cb_ptr obj g_object_unref_ptr))]>
        (channels w) /\
    refcounts w' !! obj = Some 1%nat /\
    forall mc : FlMethodCall,
      deliver (registrar_messenger registrar, "cozy_data"%string) mc w' =
      cozy_data_plugin_handle_method_call (COZY_DATA_PLUGIN obj) mc w'.
Proof.
  intros registrar w.
  exists (registered registrar w), (fresh (dom (refcounts w))).
  split; [apply register_spec|]. split; [reflexivity|]. split.
  - unfold registered. cbn [refcounts]. apply lookup_insert_eq.
  - intros mc. unfold deliver, bind, get_world, registered.
    cbn [channels]. rewrite lookup_insert_eq. reflexivity.
Qed.

(** * The platform version query *)

(** C9. The payload is "Linux " followed by the text of the [version]
    field of the structure [uname] leaves, whether the call succeeds or
    fails; it is not built from the [release] field: when the two
    fields differ, the payload is not "Linux " followed by the release. *)
Theorem payload_is_Linux_version_field :
  forall (self : CozyDataPlugin) (args : FlValue) (h : nat) (w : World),
  exists (u : utsname) (st : Z) (w1 : World) (v r : string),
    uname utsname_zero w = Some ((u, st), w1) /\
    text_of_array (version u) = Some v /\
    text_of_array (release u) = Some r /\
    v = version_seen (kernel w) /\
    replies self (mkCall "getPlatformVersion" args h) w =
      Some [FlMethodSuccessResponse (FlValueString ("Linux " +:+ v))] /\
    (v = r \/
     replies self (mkCall "getPlatformVersion" args h) w <>
       Some [FlMethodSuccessResponse (FlValueString ("Linux " +:+ r))]).
Proof.
  intros self args h w.
  exists (utsname_after (kernel w) utsname_zero), (uname_status (kernel w)),
    (log (EvUname (uname_status (kernel w))) w),
    (version_seen (kernel w)), (release_seen (kernel w)).
  split; [apply uname_spec|].
  split; [apply version_after_uname|].
  split; [apply release_after_uname|].
  split; [reflexivity|].
  split; [now apply replies_known|].
  destruct (String.string_dec (version_seen (kernel w)) (release_seen (kernel w)))
    as [E|E]; [now left | right].
  rewrite replies_known by reflexivity. intros [= Heq]. now apply E.
Qed.

(** * Safety of the handler *)

(** C10. On both paths the handler passes a response, not a null
    pointer, to [fl_method_call_respond].  The structure passed to
    [uname] is all zero bytes, so its version field has a text (the
    empty one) even when [uname] fails and writes nothing, and the
    query is defined on every host. *)
Theorem response_assigned_and_payload_defined :
  (forall (self : CozyDataPlugin) (mc : FlMethodCall) (w : World),
     exists (w' : World) (r : FlMethodResponse),
       cozy_data_plugin_handle_method_call self mc w = Some (tt, w') /\
       respond_events (new_events w w') = [(call_response_handle mc, Some r)] /\
       Forall (fun hr => is_Some (snd hr)) (respond_events (new_events w w'))) /\
  text_of_array (version utsname_zero) = Some ""%string /\
  (forall (channels0 : gmap (FlBinaryMessenger * string) ChannelState)
          (refcounts0 : gmap GObject nat) (trace0 : list Event),
     get_platform_version (mkWorld UnameFail channels0 refcounts0 trace0) =
     Some (FlMethodSuccessResponse (FlValueString "Linux "),
           mkWorld UnameFail channels0 refcounts0 (trace0 ++ [EvUname (-1)]))) /\
  (forall w : World, is_Some (get_platform_version w)).
Proof.
  split; [|split; [|split]].
  - intros self mc w. destruct (name_dec (call_name mc)) as [H|H].
    + eexists. eexists. split; [now apply handle_known|].
      rewrite new_events_log2. split; [reflexivity|].
      repeat constructor. simpl. eauto.
    + eexists. eexists. split; [now apply handle_unknown|].
      rewrite new_events_log1. split; [reflexivity|].
      repeat constructor. simpl. eauto.
  - reflexivity.
  - intros channels0 refcounts0 trace0. now rewrite get_platform_version_spec.
  - intros w. rewrite get_platform_version_spec. eauto.
Qed.

(** Without the terminator the zero bytes provide, the version field
    would have no text: an array of 65 bytes, none of them zero, cannot
    be read as a string. *)
Lemma unterminated_field_has_no_text :
  text_of_array (repeat "x"%char UTSNAME_LENGTH) = None.
Proof. apply text_of_unterminated. reflexivity. Qed.

(** * More about the handler *)

Lemma is_version_call_true (mc : FlMethodCall) :
  is_version_call mc = true <-> c_str (call_name mc) = GET_PLATFORM_VERSION.
Proof. unfold is_version_call. apply String.eqb_eq. Qed.

Lemma is_version_call_false (mc : FlMethodCall) :
  is_version_call mc = false <-> c_str (call_name mc) <> GET_PLATFORM_VERSION.
Proof. unfold is_version_call. apply String.eqb_neq. Qed.

Lemma new_events_add (evs : list Event) (w : World) : new_events w (add_events evs w) = evs.
Proof. unfold new_events, add_events. simpl. apply skipn_length_app. Qed.

Lemma add_events_app (e1 e2 : list Event) (w : World) :
  add_events e2 (add_events e1 w) = add_events (e1 ++ e2) w.
Proof. unfold add_events. simpl. now rewrite app_assoc. Qed.

Lemma add_events_same (evs : list Event) (w : World) : same_state w (add_events evs w).
Proof. repeat split. Qed.

(** What handling one call adds to the world, on either path. *)
Lemma handle_adds (self : CozyDataPlugin) (mc : FlMethodCall) (w : World) :
  cozy_data_plugin_handle_method_call self mc w =
  Some (tt, add_events
              (if is_version_call mc
               then [EvUname (uname_status (kernel w));
                     EvRespond (call_response_handle mc)
                       (Some (FlMethodSuccessResponse
                                (FlValueString ("Linux " +:+ version_seen (kernel w)))))]
               else [EvRespond (call_response_handle mc)
                       (Some FlMethodNotImplementedResponse)])
              w).
Proof.
  destruct (is_version_call mc) eqn:E.
  - apply is_version_call_true in E. rewrite handle_known by assumption.
    unfold log, add_events. simpl. now rewrite <- app_assoc.
  - apply is_version_call_false in E. now rewrite handle_unknown by assumption.
Qed.

(** The events of a call do not depend on the plugin object, nor on
    anything in the world but the kernel. *)
Lemma events_of_kernel (self1 self2 : CozyDataPlugin) (mc : FlMethodCall) (w1 w2 : World) :
  kernel w1 = kernel w2 -> events_of self1 mc w1 = events_of self2 mc w2.
Proof.
  intros H. unfold events_of. rewrite !handle_adds, !new_events_add. now rewrite H.
Qed.

Lemma handle_events_of (self : CozyDataPlugin) (mc : FlMethodCall) (w : World) :
  cozy_data_plugin_handle_method_call self mc w =
  Some (tt, add_events (events_of self mc w) w).
Proof.
  unfold events_of. rewrite handle_adds. now rewrite new_events_add.
Qed.

Lemma handle_calls_events (self : CozyDataPlugin) (calls : list FlMethodCall) :
  forall w,
    handle_calls self calls w =
    Some (tt, add_events (flat_map (fun c => events_of self c w) calls) w).
Proof.
  induction calls as [|c cs IH]; intros w.
  - unfold add_events. simpl. rewrite app_nil_r. now destruct w.
  - cbn [handle_calls flat_map]. unfold bind. rewrite handle_events_of, IH.
    rewrite add_events_app. do 4 f_equal.
    apply flat_map_ext. intros c'. now apply events_of_kernel.
Qed.

Lemma respond_events_app (t1 t2 : list Event) :
  respond_events (t1 ++ t2) = respond_events t1 ++ respond_events t2.
Proof.
  induction t1 as [|e t1 IH]; [reflexivity|].
  destruct e; simpl; now rewrite IH.
Qed.

Lemma uname_calls_app (t1 t2 : list Event) :
  uname_calls (t1 ++ t2) = (uname_calls t1 + uname_calls t2)%nat.
Proof.
  induction t1 as [|e t1 IH]; [reflexivity|].
  destruct e; simpl; now rewrite IH.
Qed.

Lemma length_field_text (n : nat) (s : string) : (String.length (field_text n s) <= n)%nat.
Proof.
  revert s. induction n as [|n IH]; intros [|c r]; simpl; try lia.
  destruct (is_nul c); simpl; [lia|]. specialize (IH r). lia.
Qed.

Lemma length_version_seen (o : uname_outcome) :
  (String.length (version_seen o) < UTSNAME_LENGTH)%nat.
Proof.
  destruct o as [k|]; simpl.
  - unfold uts_text. pose proof (length_field_text (Nat.pred UTSNAME_LENGTH) (k_version k)).
    unfold UTSNAME_LENGTH in *. simpl in *. lia.
  - unfold UTSNAME_LENGTH. lia.
Qed.

(** X1. The handler answers with a success response exactly when the
    name of the call, read as a C string, is "getPlatformVersion", and
    with a not-implemented response exactly when it is not: the match is
    on the whole name and on its case, and characters after a NUL do not
    count. *)
Theorem success_iff_version_name :
  forall (self : CozyDataPlugin) (mc : FlMethodCall) (w : World),
  exists r : FlMethodResponse,
    replies self mc w = Some [r] /\
    (response_kind r = KSuccess <->
     c_str (call_name mc) = "getPlatformVersion"%string) /\
    (response_kind r = KNotImplemented <->
     c_str (call_name mc) <> "getPlatformVersion"%string).
Proof.
  intros self mc w. destruct (name_dec (call_name mc)) as [H|H].
  - eexists. split; [now apply replies_known|]. simpl. split; split; try easy.
  - eexists. split; [now apply replies_unknown|]. simpl. split; split; try easy.
Qed.

(** X2. The whole response, payload included, is fixed by the text of
    the method name and by what [uname] does on the host: the plugin
    object, the arguments, the response handle, the channels, the
    reference counts and the trace so far have no part in it. *)
Theorem response_fixed_by_name_and_host :
  forall (self1 self2 : CozyDataPlugin) (c1 c2 : FlMethodCall) (w1 w2 : World),
    c_str (call_name c1) = c_str (call_name c2) ->
    kernel w1 = kernel w2 ->
    replies self1 c1 w1 = replies self2 c2 w2.
Proof.
  intros self1 self2 c1 c2 w1 w2 Hn Hk.
  destruct (name_dec (call_name c1)) as [H|H].
  - rewrite !replies_known by congruence. now rewrite Hk.
  - rewrite !replies_unknown by congruence. reflexivity.
Qed.

Lemma response_fixed_by_name_and_host_witness :
  replies plugin0 call_version jammy_world =
  replies (mkPlugin 4%nat) (mkCall "getPlatformVersion" (FlValueString "x") 11%nat)
          (mkWorld (UnameOk jammy) ∅ {[ 4%nat := 1%nat ]} [EvUname 0]).
Proof.
  apply (response_fixed_by_name_and_host plugin0 (mkPlugin 4%nat) call_version
           (mkCall "getPlatformVersion" (FlValueString "x") 11%nat) jammy_world
           (mkWorld (UnameOk jammy) ∅ {[ 4%nat := 1%nat ]} [EvUname 0]));
    reflexivity.
Defined.

(** X3. The operating system is queried on the "getPlatformVersion"
    path only: there the handler calls [uname] once and then responds;
    for every other name the response is the only event, and [uname] is
    not called. *)
Theorem uname_only_for_version_call :
  forall (self : CozyDataPlugin) (mc : FlMethodCall) (w : World),
  exists w' : World,
    cozy_data_plugin_handle_method_call self mc w = Some (tt, w') /\
    new_events w w' =
      (if is_version_call mc
       then [EvUname (uname_status (kernel w));
             EvRespond (call_response_handle mc)
               (Some (FlMethodSuccessResponse
                        (FlValueString ("Linux " +:+ version_seen (kernel w)))))]
       else [EvRespond (call_response_handle mc)
               (Some FlMethodNotImplementedResponse)]) /\
    uname_calls (new_events w w') = (if is_version_call mc then 1 else 0)%nat.
Proof.
  intros self mc w. eexists. split; [apply handle_adds|].
  rewrite new_events_add. split; [reflexivity|].
  now destruct (is_version_call mc).
Qed.

(** X4. The payload of the success response starts with "Linux ", has
    no NUL character in it, and is at most 6 + 64 characters long: six
    for the prefix and what a [char\[65\]] field can hold for the rest. *)
Theorem payload_is_bounded :
  forall (self : CozyDataPlugin) (args : FlValue) (h : nat) (w : World),
  exists s : string,
    replies self (mkCall "getPlatformVersion" args h) w =
      Some [FlMethodSuccessResponse (FlValueString s)] /\
    String.prefix "Linux " s = true /\
    nul_free s = true /\
    (6 <= String.length s <= 6 + (UTSNAME_LENGTH - 1))%nat.
Proof.
  intros self args h w.
  exists ("Linux " +:+ version_seen (kernel w))%string.
  split; [now apply replies_known|]. split; [|split].
  - simpl. now destruct (version_seen (kernel w)).
  - change (nul_free (version_seen (kernel w)) = true).
    rewrite <- version_seen_nul_free. apply nul_free_c_str.
  - pose proof (length_version_seen (kernel w)).
    change (String.length ("Linux " +:+ version_seen (kernel w)))
      with (6 + String.length (version_seen (kernel w)))%nat.
    unfold UTSNAME_LENGTH in *. lia.
Qed.

(** X5. Two hosts get the same answer to "getPlatformVersion" exactly
    when the version fields [uname] leaves on them have the same text:
    the payload tells hosts apart by that text and by nothing else. *)
Theorem same_answer_iff_same_version :
  forall (self : CozyDataPlugin) (args : FlValue) (h : nat) (w1 w2 : World),
    replies self (mkCall "getPlatformVersion" args h) w1 =
    replies self (mkCall "getPlatformVersion" args h) w2 <->
    version_seen (kernel w1) = version_seen (kernel w2).
Proof.
  intros self args h w1 w2. rewrite !replies_known by reflexivity. split.
  - intros [= H]. exact H.
  - intros H. now rewrite H.
Qed.

(** X6. Calls do not interfere: the events of a run of calls are the
    events each call has when it is handled alone on the first world, in
    the order of the calls, and the run changes nothing but the trace. *)
Theorem calls_do_not_interfere :
  forall (self : CozyDataPlugin) (calls : list FlMethodCall) (w : World),
  exists w' : World,
    handle_calls self calls w = Some (tt, w') /\
    same_state w w' /\
    trace w' = trace w ++ flat_map (fun c => events_of self c w) calls /\
    new_events w w' = flat_map (fun c => events_of self c w) calls.
Proof.
  intros self calls w. eexists. split; [apply handle_calls_events|].
  split; [apply add_events_same|]. split; [reflexivity|]. apply new_events_add.
Qed.

Lemma respond_events_of (self : CozyDataPlugin) (mc : FlMethodCall) (w : World) :
  map fst (respond_events (events_of self mc w)) = [call_response_handle mc] /\
  Forall (fun hr => is_Some (snd hr)) (respond_events (events_of self mc w)) /\
  uname_calls (events_of self mc w) = (if is_version_call mc then 1 else 0)%nat.
Proof.
  unfold events_of. rewrite handle_adds, new_events_add.
  destruct (is_version_call mc); repeat split; repeat constructor; simpl; eauto.
Qed.

Lemma respond_events_of_run (self : CozyDataPlugin) (calls : list FlMethodCall) (w : World) :
  let evs := flat_map (fun c => events_of self c w) calls in
  map fst (respond_events evs) = map call_response_handle calls /\
  Forall (fun hr => is_Some (snd hr)) (respond_events evs) /\
  uname_calls evs = List.length (List.filter is_version_call calls).
Proof.
  induction calls as [|c cs (IH1 & IH2 & IH3)]; [repeat split; constructor|].
  cbn [flat_map map List.filter].
  rewrite respond_events_app, uname_calls_app, map_app.
  destruct (respond_events_of self c w) as (H1 & H2 & H3).
  rewrite H1, H3, IH1, IH3. split; [reflexivity|]. split.
  - apply Forall_app. now split.
  - now destruct (is_version_call c).
Qed.

(** X7. A run of calls makes one call of [fl_method_call_respond] for
    each call handled, on the handles of the calls in their order, and
    as many calls of [uname] as there are "getPlatformVersion" calls
    among them. *)
Theorem one_response_per_call_in_order :
  forall (self : CozyDataPlugin) (calls : list FlMethodCall) (w : World),
  exists w' : World,
    handle_calls self calls w = Some (tt, w') /\
    map fst (respond_events (new_events w w')) = map call_response_handle calls /\
    Forall (fun hr => is_Some (snd hr)) (respond_events (new_events w w')) /\
    uname_calls (new_events w w') = List.length (List.filter is_version_call calls).
Proof.
  intros self calls w. eexists. split; [apply handle_calls_events|].
  rewrite new_events_add. apply respond_events_of_run.
Qed.

(** * More about registration *)

Lemma fresh_object_unused (w : World) : refcounts w !! fresh (dom (refcounts w)) = None.
Proof. apply not_elem_of_dom, is_fresh. Qed.

Lemma registered_handler (registrar : FlPluginRegistrar) (w : World) :
  installed_handler (registrar_messenger registrar, "cozy_data"%string)
                    (registered registrar w) =
  Some (mkHandler method_call_cb_ptr (fresh (dom (refcounts w))) g_object_unref_ptr).
Proof.
  unfold installed_handler, registered. cbn [channels].
  now rewrite lookup_insert_eq.
Qed.

Lemma installed_handler_add (channel : FlMethodChannel) (evs : list Event) (w : World) :
  installed_handler channel (add_events evs w) = installed_handler channel w.
Proof. reflexivity. Qed.

(** With [method_call_cb] installed, a call arriving on the channel is
    handled by the plugin that is the user data. *)
Lemma deliver_installed (channel : FlMethodChannel) (h : MethodCallHandler)
    (mc : FlMethodCall) (w : World) :
  installed_handler channel w = Some h ->
  deliver channel mc w =
  cozy_data_plugin_handle_method_call (COZY_DATA_PLUGIN (handler_user_data h)) mc w.
Proof.
  unfold installed_handler, deliver, bind, get_world. intros H.
  destruct (channels w !! channel) as [st|]; [|discriminate].
  rewrite H. now destruct h as [[] ud dn].
Qed.

Lemma deliver_all_installed (channel : FlMethodChannel) (h : MethodCallHandler)
    (calls : list FlMethodCall) :
  forall w,
    installed_handler channel w = Some h ->
    deliver_all channel calls w =
    handle_calls (COZY_DATA_PLUGIN (handler_user_data h)) calls w.
Proof.
  induction calls as [|c cs IH]; intros w H; [reflexivity|].
  cbn [deliver_all handle_calls]. unfold bind.
  rewrite (deliver_installed channel h c w H), handle_events_of.
  apply IH. now rewrite installed_handler_add.
Qed.



(** X10. Registering with two registrars whose messengers differ gives
    two plugin objects at different addresses, each with one reference,
    and each messenger's "cozy_data" channel has the handler of its own
    plugin: the second registration does not touch the first. *)
Theorem two_registrations_are_independent :
  forall (r1 r2 : FlPluginRegistrar) (w : World),
    registrar_messenger r1 <> registrar_messenger r2 ->
    exists (w' : World) (obj1 obj2 : GObject),
      (do _ <- cozy_data_plugin_register_with_registrar r1 ;
       cozy_data_plugin_register_with_registrar r2) w = Some (tt, w') /\
      obj1 <> obj2 /\
      installed_handler (registrar_messenger r1, "cozy_data"%string) w' =
        Some (mkHandler method_call_cb_ptr obj1 g_object_unref_ptr) /\
      installed_handler (registrar_messenger r2, "cozy_data"%string) w' =
        Some (mkHandler method_call_cb_ptr obj2 g_object_unref_ptr) /\
      refcounts w' !! obj1 = Some 1%nat /\
      refcounts w' !! obj2 = Some 1%nat.
Proof.
  intros r1 r2 w Hm.
  exists (registered r2 (registered r1 w)),
    (fresh (dom (refcounts w))), (fresh (dom (refcounts (registered r1 w)))).
  assert (fresh (dom (refcounts w)) <> fresh (dom (refcounts (registered r1 w)))) as Hne.
  { intros E. pose proof (fresh_object_unused (registered r1 w)) as Hf.
    rewrite <- E in Hf. unfold registered in Hf at 1. cbn [refcounts] in Hf.
    rewrite lookup_insert_eq in Hf. discriminate. }
  split; [unfold bind; now rewrite !register_spec|].
  split; [exact Hne|]. split; [|split; [|split]].
  - unfold installed_handler. unfold registered at 1. cbn [channels].
    rewrite lookup_insert_ne by congruence. apply registered_handler.
  - apply registered_handler.
  - unfold registered at 1. cbn [refcounts].
    rewrite lookup_insert_ne by congruence.
    unfold registered. cbn [refcounts]. apply lookup_insert_eq.
  - unfold registered at 1. cbn [refcounts]. apply lookup_insert_eq.
Qed.

Lemma two_registrations_are_independent_witness :
  exists (w' : World) (obj1 obj2 : GObject),
    (do _ <- cozy_data_plugin_register_with_registrar (mkRegistrar 1%nat) ;
     cozy_data_plugin_register_with_registrar (mkRegistrar 2%nat)) jammy_world =
      Some (tt, w') /\
    obj1 <> obj2 /\
    installed_handler (1%nat, "cozy_data"%string) w' =
      Some (mkHandler method_call_cb_ptr obj1 g_object_unref_ptr) /\
    installed_handler (2%nat, "cozy_data"%string) w' =
      Some (mkHandler method_call_cb_ptr obj2 g_object_unref_ptr) /\
    refcounts w' !! obj1 = Some 1%nat /\
    refcounts w' !! obj2 = Some 1%nat.
Proof.
  apply (two_registrations_are_independent (mkRegistrar 1%nat) (mkRegistrar 2%nat)
           jammy_world).
  discriminate.
Defined.

(** X11. After registration, any run of calls arriving on the
    "cozy_data" channel is handled by the registered plugin, call by
    call: each call gets one response on its own handle, in order, and
    the run leaves the handler installed and the plugin with its one
    reference, so the callback never finds its user data freed. *)
Theorem delivered_calls_reach_handler :
  forall (registrar : FlPluginRegistrar) (calls : list FlMethodCall) (w : World),
  exists (w' w'' : World) (obj : GObject),
    cozy_data_plugin_register_with_registrar registrar w = Some (tt, w') /\
    deliver_all (registrar_messenger registrar, "cozy_data"%string) calls w' =
      Some (tt, w'') /\
    handle_calls (COZY_DATA_PLUGIN obj) calls w' = Some (tt, w'') /\
    map fst (respond_events (new_events w' w'')) = map call_response_handle calls /\
    installed_handler (registrar_messenger registrar, "cozy_data"%string) w'' =
      Some (mkHandler method_call_cb_ptr obj g_object_unref_ptr) /\
    refcounts w'' !! obj = Some 1%nat.
Proof.
  intros registrar calls w.
  pose proof (registered_handler registrar w) as Hh.
  eexists. eexists. exists (fresh (dom (refcounts w))).
  split; [apply register_spec|].
  rewrite (deliver_all_installed _ _ calls _ Hh).
  cbn [handler_user_data]. rewrite handle_calls_events.
  split; [reflexivity|]. split; [reflexivity|].
  rewrite new_events_add, installed_handler_add.
  split; [apply respond_events_of_run|]. split; [exact Hh|].
  unfold registered, add_events. cbn [refcounts]. apply lookup_insert_eq.
Qed.
